(** * A model of the email-tracking service of src/backend/app.py

    The Flask application is embedded as pure functions over an explicit
    state: the three MongoDB collections ([tracked_emails], [open_events],
    [clicks]) and the position of the uuid4 random tape.  Every external
    effect the handlers perform is an input: the HTTP request, the clock
    ([now_iso]), the answer of the geolocation provider, and the outcome of
    each MongoDB call (succeeds, or raises with a message). *)

From Stdlib Require Import ZArith Lia Ascii Sorting.Sorted.
From stdpp Require Import base gmap strings list.

Set Warnings "-register-all".
Open Scope Z_scope.

(* ------------------------------------------------------------------ *)
(** ** Python string helpers *)

Module Py.

(** [s.startswith(p)] *)
Definition startswith (s p : string) : bool := String.prefix p s.

(** [s.startswith((p1, p2, ...))] *)
Definition startswith_any (s : string) (ps : list string) : bool :=
  existsb (startswith s) ps.

(** [sub in s] for strings *)
Fixpoint contains (sub s : string) : bool :=
  match s with
  | EmptyString => String.prefix sub s
  | String _ s' => String.prefix sub s || contains sub s'
  end.

(** [s.split(',')[0]] *)
Fixpoint split_comma_head (s : string) : string :=
  match s with
  | EmptyString => EmptyString
  | String c s' =>
      if Ascii.eqb c ","%char then EmptyString else String c (split_comma_head s')
  end.

(** [str.isspace] on one ASCII character: \t \n \x0b \x0c \r, \x1c-\x1f and space. *)
Definition is_space (c : ascii) : bool :=
  let n := nat_of_ascii c in
  ((9 <=? n) && (n <=? 13))%nat || ((28 <=? n) && (n <=? 32))%nat
  || (n =? 133)%nat || (n =? 160)%nat.

Fixpoint lstrip (s : string) : string :=
  match s with
  | EmptyString => EmptyString
  | String c s' => if is_space c then lstrip s' else s
  end.

Definition string_rev (s : string) : string :=
  String.string_of_list_ascii (rev (String.list_ascii_of_string s)).

(** [s.strip()] *)
Definition strip (s : string) : string := string_rev (lstrip (string_rev (lstrip s))).

(** Truthiness of an optional string argument: [None] and [''] are falsy. *)
Definition truthy (o : option string) : bool :=
  match o with
  | None => false
  | Some EmptyString => false
  | Some _ => true
  end.

(** [str(n)] for an integer *)
Fixpoint digits_of_nat (fuel n : nat) (acc : string) : string :=
  match fuel with
  | O => acc
  | S fuel' =>
      let d := Nat.modulo n 10 in
      let acc' := String (ascii_of_nat (48 + d)) acc in
      if (n <? 10)%nat then acc' else digits_of_nat fuel' (Nat.div n 10) acc'
  end.

Definition str_Z (z : Z) : string :=
  match z with
  | Zneg _ => String "-"%char (digits_of_nat (S (Z.to_nat (- z))) (Z.to_nat (- z)) "")
  | _ => digits_of_nat (S (Z.to_nat z)) (Z.to_nat z) ""
  end.

End Py.

(* ------------------------------------------------------------------ *)
(** ** JSON values (what [response.json()] and [jsonify] handle) *)

Inductive json : Type :=
| JNull
| JBool (b : bool)
| JNum (z : Z)
| JStr (s : string)
| JArr (l : list json)
| JObj (fields : list (string * json)).

(** [d.get(k)] on a decoded JSON object: the last binding wins, as in
    [json.loads]. *)
Fixpoint obj_get (fields : list (string * json)) (k : string) : option json :=
  match fields with
  | [] => None
  | (k', v) :: rest =>
      match obj_get rest k with
      | Some w => Some w
      | None => if String.eqb k k' then Some v else None
      end
  end.

(** Outcome of a Python expression: a value, or an exception escaping it. *)
Inductive py_result (A : Type) : Type :=
| Ret (a : A)
| Raise (exn : string).
Arguments Ret {A} a.
Arguments Raise {A} exn.

(** [x.get(k)] where [x] is any JSON value: only dicts have [.get];
    anything else raises [AttributeError]. [None] stands for Python's
    [None] result. *)
Definition py_get (x : json) (k : string) : py_result json :=
  match x with
  | JObj f => Ret (match obj_get f k with Some v => v | None => JNull end)
  | _ => Raise "AttributeError"
  end.

(** [x.get(k, default)] *)
Definition py_get_default (x : json) (k : string) (d : json) : py_result json :=
  match x with
  | JObj f => Ret (match obj_get f k with Some v => v | None => d end)
  | _ => Raise "AttributeError"
  end.

Definition bind_r {A B} (m : py_result A) (k : A -> py_result B) : py_result B :=
  match m with Ret a => k a | Raise e => Raise e end.

#[global] Instance py_result_ret : MRet py_result := fun _ a => Ret a.
#[global] Instance py_result_bind : MBind py_result := fun _ _ k m => bind_r m k.

(* ------------------------------------------------------------------ *)
(** ** [get_ip_info]: the geolocation helper *)

(** What [requests.get(url, timeout=5)] and [response.json()] produce:
    a response with its status code and its decoded body, or a
    [RequestException] (connection error, timeout, undecodable body). *)
Inductive ext_outcome : Type :=
| ExtResponse (status : Z) (body : json)
| ExtRequestException.

Definition PRIVATE_PREFIXES : list string := ["127.0.0.1"; "192.168."; "10."; "172."].

Definition ABSTRACT_API_URL (ip_address : string) : string :=
  "https://ipgeolocation.abstractapi.com/v1/?api_key={ABSTRACT_API_KEY}&ip_address="
  +:+ ip_address.

(** [get_ip_info(ip_address)]: the list of URLs fetched (the external
    lookup, if any) and the outcome of the call. *)
Definition get_ip_info (ip_address : string) (ext : ext_outcome)
  : list string * py_result json :=
  if Py.startswith_any ip_address PRIVATE_PREFIXES then
    ([], Ret (JObj [("note", JStr "Private/Local IP Address")]))
  else
    ([ABSTRACT_API_URL ip_address],
     match ext with
     | ExtRequestException => Ret (JObj [("error", JStr "API request failed")])
     | ExtResponse status data =>
         if Z.eqb status 200 then
           city ← py_get data "city";
           region ← py_get data "region";
           country ← py_get data "country";
           country_code ← py_get data "country_code";
           continent ← py_get data "continent";
           latitude ← py_get data "latitude";
           longitude ← py_get data "longitude";
           conn1 ← py_get_default data "connection" (JObj []);
           isp ← py_get conn1 "isp_name";
           conn2 ← py_get_default data "connection" (JObj []);
           ctype ← py_get conn2 "connection_type";
           Ret (JObj [("city", city); ("region", region); ("country", country);
                      ("country_code", country_code); ("continent", continent);
                      ("latitude", latitude); ("longitude", longitude);
                      ("isp", isp); ("connection_type", ctype)])
         else
           Ret (JObj [("error", JStr ("API failed with status " +:+ Py.str_Z status))])
     end).



(* ------------------------------------------------------------------ *)
(** ** The transparent pixel *)

Definition b64_value (c : ascii) : option Z :=
  let n := Z.of_nat (nat_of_ascii c) in
  if (65 <=? n) && (n <=? 90) then Some (n - 65)
  else if (97 <=? n) && (n <=? 122) then Some (n - 71)
  else if (48 <=? n) && (n <=? 57) then Some (n + 4)
  else if n =? 43 then Some 62
  else if n =? 47 then Some 63
  else None.

(** [base64.b64decode] on well-formed input, one quadruple at a time;
    a ['='] (no value) ends the data of its quadruple. *)
Fixpoint b64_decode_chars (l : list ascii) : list Z :=
  match l with
  | a :: b :: c :: d :: rest =>
      match b64_value a, b64_value b with
      | Some va, Some vb =>
          let b1 := Z.lor (Z.shiftl va 2) (Z.shiftr vb 4) in
          match b64_value c with
          | None => [b1]
          | Some vc =>
              let b2 := Z.land (Z.lor (Z.shiftl vb 4) (Z.shiftr vc 2)) 255 in
              match b64_value d with
              | None => [b1; b2]
              | Some vd =>
                  let b3 := Z.land (Z.lor (Z.shiftl vc 6) vd) 255 in
                  b1 :: b2 :: b3 :: b64_decode_chars rest
              end
          end
      | _, _ => []
      end
  | _ => []
  end.

Definition b64decode (s : string) : list Z :=
  b64_decode_chars (String.list_ascii_of_string s).

Definition TRANSPARENT_PNG : list Z :=
  b64decode "iVBORw0KGgoAAAANSUhEUgAAAAEAAAABCAYAAAAfFcSJAAAADUlEQVR42mNkYPhfDwAChwGA60e6kgAAAABJRU5ErkJggg==".



(* ------------------------------------------------------------------ *)
(** ** Documents of the three collections *)

(** A document of [tracked_emails] (its [_id] is the key of the map). *)
Record summary : Type := {
  open_count : option Z;
  click_count : option Z;
  last_opened_at : option string;
  first_opened_at : option string;
  created_at : option string
}.

(** [event_record] of [track_final_confirmation]. *)
Record open_event : Type := {
  oe_uid : string;
  oe_ip : string;
  oe_user_agent : string;
  oe_opened_at : string;
  oe_is_real_open : bool;
  oe_geo_info : option json
}.

(** [click_record] of [track_click]. *)
Record click_event : Type := {
  ce_uid : string;
  ce_destination_url : string;
  ce_ip : string;
  ce_user_agent : string;
  ce_clicked_at : string;
  ce_geo_info : json
}.

(** The database [email_tracker]. [open_events] and [clicks] are kept in
    insertion order. *)
Record db : Type := {
  tracked_emails : gmap string summary;
  open_events : list open_event;
  clicks : list click_event
}.

Definition empty_db : db := {| tracked_emails := ∅; open_events := []; clicks := [] |}.

(** The outcome of each MongoDB call a request makes: [None] when it
    succeeds, [Some msg] when it raises (and writes nothing). *)
Record faults : Type := {
  f_insert : option string;
  f_update : option string;
  f_find : option string;
  f_aggregate : option string;
  f_count : option string
}.

Definition no_faults : faults :=
  {| f_insert := None; f_update := None; f_find := None; f_aggregate := None; f_count := None |}.

(** Code that touches the database: state passing, where an exception
    keeps the writes made before it (MongoDB has no rollback here). *)
Definition Mongo (A : Type) : Type := db -> py_result A * db.

Definition m_ret {A} (a : A) : Mongo A := fun d => (Ret a, d).
Definition m_bind {A B} (m : Mongo A) (k : A -> Mongo B) : Mongo B :=
  fun d => match m d with (Ret a, d') => k a d' | (Raise e, d') => (Raise e, d') end.
Definition m_lift {A} (r : py_result A) : Mongo A := fun d => (r, d).

#[global] Instance Mongo_ret : MRet Mongo := fun _ a => m_ret a.
#[global] Instance Mongo_bind : MBind Mongo := fun _ _ k m => m_bind m k.

(** A MongoDB call: raises with [fault], or performs [write]. *)
Definition mongo_call (fault : option string) (write : db -> db) : Mongo unit :=
  fun d => match fault with Some e => (Raise e, d) | None => (Ret tt, write d) end.

(** [open_events_collection.insert_one(ev)] *)
Definition insert_open_event (f : faults) (ev : open_event) : Mongo unit :=
  mongo_call (f_insert f) (fun d =>
    {| tracked_emails := tracked_emails d; open_events := open_events d ++ [ev];
       clicks := clicks d |}).

(** [clicks_collection.insert_one(ev)] *)
Definition insert_click_event (f : faults) (ev : click_event) : Mongo unit :=
  mongo_call (f_insert f) (fun d =>
    {| tracked_emails := tracked_emails d; open_events := open_events d;
       clicks := clicks d ++ [ev] |}).

Definition z_inc (o : option Z) : option Z := Some (default 0 o + 1).

(** [update_one({'_id': id}, {'$inc': {'open_count': 1}, '$set':
    {'last_opened_at': now}, '$setOnInsert': {'_id': id, 'first_opened_at':
    now, 'created_at': now}}, upsert=True)] *)
Definition upsert_open (s : option summary) (now_iso : string) : summary :=
  match s with
  | Some s =>
      {| open_count := z_inc (open_count s); click_count := click_count s;
         last_opened_at := Some now_iso; first_opened_at := first_opened_at s;
         created_at := created_at s |}
  | None =>
      {| open_count := Some 1; click_count := None; last_opened_at := Some now_iso;
         first_opened_at := Some now_iso; created_at := Some now_iso |}
  end.

Definition update_open_summary (f : faults) (tracking_id now_iso : string) : Mongo unit :=
  mongo_call (f_update f) (fun d =>
    {| tracked_emails := <[tracking_id := upsert_open (tracked_emails d !! tracking_id) now_iso]>
                           (tracked_emails d);
       open_events := open_events d; clicks := clicks d |}).

(** [update_one({'_id': id}, {'$inc': {'click_count': 1}})], without
    [upsert]: a missing document is left missing. *)
Definition inc_click (s : summary) : summary :=
  {| open_count := open_count s; click_count := z_inc (click_count s);
     last_opened_at := last_opened_at s; first_opened_at := first_opened_at s;
     created_at := created_at s |}.

Definition update_click_summary (f : faults) (tracking_id : string) : Mongo unit :=
  mongo_call (f_update f) (fun d =>
    {| tracked_emails :=
         match tracked_emails d !! tracking_id with
         | Some s => <[tracking_id := inc_click s]> (tracked_emails d)
         | None => tracked_emails d
         end;
       open_events := open_events d; clicks := clicks d |}).

(* ------------------------------------------------------------------ *)
(** ** Requests, responses and the uuid4 source *)

Record headers : Type := {
  hdr_user_agent : option string;
  hdr_x_forwarded_for : option string;
  remote_addr : string
}.

(** [request.headers.get('X-Forwarded-For', request.remote_addr).split(',')[0].strip()] *)
Definition client_ip (h : headers) : string :=
  Py.strip (Py.split_comma_head (default (remote_addr h) (hdr_x_forwarded_for h))).

(** [request.headers.get('User-Agent', '')] *)
Definition client_user_agent (h : headers) : string := default "" (hdr_user_agent h).

(** Where a redirect points: [url_for(endpoint, **args, _external=True)],
    or a literal URL. *)
Inductive location : Type :=
| LocEndpoint (endpoint : string) (args : list (string * string))
| LocUrl (url : string).

Inductive response : Type :=
| RFile (payload : list Z) (mimetype : string)   (* send_file *)
| RRedirect (loc : location) (code : Z)         (* redirect(..., code=...) *)
| RText (body : string) (code : Z)              (* return "...", code *)
| RJson (body : json) (code : Z)                (* jsonify(...), code *)
| RInternalServerError (exn : string).          (* uncaught exception: Flask's 500 *)

Definition pixel_response : response := RFile TRANSPARENT_PNG "image/png".

(** [uuid.uuid4()] reads the random source; it is modelled as a tape of
    values and the position of the next draw. *)
Record uuid_gen : Type := {
  uuid_tape : nat -> string;
  uuid_pos : nat
}.

Definition uuid4 (g : uuid_gen) : string * uuid_gen :=
  (uuid_tape g (uuid_pos g), {| uuid_tape := uuid_tape g; uuid_pos := S (uuid_pos g) |}).

(** Python's call of a view function with keyword arguments only: every
    keyword must name a parameter, every parameter must be given;
    otherwise [TypeError]. The result is the function's locals. *)
Definition call_view (params : list string) (kwargs : list (string * string))
  : py_result (list (string * string)) :=
  if forallb (fun kv => existsb (String.eqb kv.1) params) kwargs
     && forallb (fun p => existsb (fun kv => String.eqb kv.1 p) kwargs) params
  then Ret kwargs else Raise "TypeError".

Fixpoint local_lookup (locals : list (string * string)) (x : string) : option string :=
  match locals with
  | [] => None
  | (k, v) :: rest => if String.eqb k x then Some v else local_lookup rest x
  end.

(* ------------------------------------------------------------------ *)
(** ** [track_initial_request] ([GET /track]) *)

Definition track_initial_request (g : uuid_gen) (id_arg : option string)
  : response * uuid_gen :=
  if negb (Py.truthy id_arg) then (pixel_response, g)
  else
    let tracking_id := default "" id_arg in
    let '(request_id, g') := uuid4 g in
    (RRedirect (LocEndpoint "track_final_confirmation"
                  [("tracking_id", tracking_id); ("request_id", request_id)]) 307, g').

(* ------------------------------------------------------------------ *)
(** ** [track_final_confirmation] ([GET /track-final/<tracking_id>/<request_id>]) *)

Definition TRACK_FINAL_PARAMS : list string := ["tracking_id"; "request_id"].

(** The body of the [try] block. *)
Definition track_final_try (tracking_id ip_address user_agent now_iso : string)
  (ext : ext_outcome) (f : faults) : Mongo unit :=
  let is_google_proxy := Py.contains "GoogleImageProxy" user_agent in
  let event_record :=
    {| oe_uid := tracking_id; oe_ip := ip_address; oe_user_agent := user_agent;
       oe_opened_at := now_iso; oe_is_real_open := is_google_proxy; oe_geo_info := None |} in
  if is_google_proxy then
    ip_info ← m_lift (snd (get_ip_info ip_address ext));
    _ ← update_open_summary f tracking_id now_iso;
    insert_open_event f
      {| oe_uid := tracking_id; oe_ip := ip_address; oe_user_agent := user_agent;
         oe_opened_at := now_iso; oe_is_real_open := true; oe_geo_info := Some ip_info |}
  else
    insert_open_event f event_record.

Definition track_final_confirmation (d : db) (tracking_id request_id : string)
  (h : headers) (now_iso : string) (ext : ext_outcome) (f : faults) : response * db :=
  let user_agent := client_user_agent h in
  let ip_address := client_ip h in
  (* except Exception: the error is printed and dropped *)
  let '(_, d') := track_final_try tracking_id ip_address user_agent now_iso ext f d in
  (pixel_response, d').

(* ------------------------------------------------------------------ *)
(** ** [track_click] ([GET /click]) *)

Definition track_click (d : db) (uid url : option string) (h : headers)
  (now_iso : string) (ext : ext_outcome) (f : faults) : response * db :=
  if negb (Py.truthy uid) || negb (Py.truthy url) then
    (RText "Error: Missing tracking ID or destination URL." 400, d)
  else
    let tracking_id := default "" uid in
    let destination_url := default "" url in
    if negb (Py.startswith destination_url "http://")
       && negb (Py.startswith destination_url "https://") then
      (RText "Error: Invalid destination URL format." 400, d)
    else
      let ip_address := client_ip h in
      let user_agent := client_user_agent h in
      (* get_ip_info runs outside the try block *)
      match snd (get_ip_info ip_address ext) with
      | Raise e => (RInternalServerError e, d)
      | Ret geo_info =>
          let click_record :=
            {| ce_uid := tracking_id; ce_destination_url := destination_url;
               ce_ip := ip_address; ce_user_agent := user_agent;
               ce_clicked_at := now_iso; ce_geo_info := geo_info |} in
          let '(_, d') :=
            (_ ← insert_click_event f click_record; update_click_summary f tracking_id) d in
          (RRedirect (LocUrl destination_url) 307, d')
      end.

(* ------------------------------------------------------------------ *)
(** ** Read-side routes *)

Definition opt_field (k : string) (o : option json) : list (string * json) :=
  match o with Some v => [(k, v)] | None => [] end.

(** A [tracked_emails] document under the projection [{'_id': 0}]. *)
Definition summary_fields (s : summary) : list (string * json) :=
  opt_field "open_count" (JNum <$> open_count s)
  ++ opt_field "click_count" (JNum <$> click_count s)
  ++ opt_field "last_opened_at" (JStr <$> last_opened_at s)
  ++ opt_field "first_opened_at" (JStr <$> first_opened_at s)
  ++ opt_field "created_at" (JStr <$> created_at s).

Definition open_event_json (e : open_event) : json :=
  JObj ([("uid", JStr (oe_uid e)); ("ip", JStr (oe_ip e));
         ("user_agent", JStr (oe_user_agent e)); ("opened_at", JStr (oe_opened_at e));
         ("is_real_open", JBool (oe_is_real_open e))]
        ++ opt_field "geo_info" (oe_geo_info e)).

Definition click_event_json (e : click_event) : json :=
  JObj [("uid", JStr (ce_uid e)); ("destination_url", JStr (ce_destination_url e));
        ("ip", JStr (ce_ip e)); ("user_agent", JStr (ce_user_agent e));
        ("clicked_at", JStr (ce_clicked_at e)); ("geo_info", ce_geo_info e)].

(** [.sort(key, 1)] and [.sort(key, -1)]: stable insertion sort on the
    string key (ties keep insertion order). *)
Fixpoint insert_by {A} (before : string -> string -> bool) (key : A -> string)
  (x : A) (l : list A) : list A :=
  match l with
  | [] => [x]
  | y :: l' => if before (key x) (key y) then x :: l else y :: insert_by before key x l'
  end.

Definition sort_by {A} (before : string -> string -> bool) (key : A -> string)
  (l : list A) : list A :=
  fold_left (fun acc x => insert_by before key x acc) l [].

Definition sort_asc {A} := @sort_by A String.ltb.
Definition sort_desc {A} := @sort_by A (fun a b => String.ltb b a).

Definition error_json (msg : string) (code : Z) : response :=
  RJson (JObj [("error", JStr msg)]) code.

(** [get_opens] ([GET /api/opens]) *)
Definition get_opens (d : db) (id_arg : option string) (f : faults) : response :=
  match f_find f with
  | Some e => error_json e 500
  | None =>
      let matching :=
        if Py.truthy id_arg
        then filter (fun e => String.eqb (oe_uid e) (default "" id_arg) = true) (open_events d)
        else open_events d in
      RJson (JObj [("opens", JArr (map open_event_json (sort_desc oe_opened_at matching)))]) 200
  end.

(** MongoDB's [$sum] over one field of every document: missing fields
    contribute nothing. *)
Definition mongo_sum (field : summary -> option Z) (m : gmap string summary) : Z :=
  map_fold (fun _ s acc => default 0 (field s) + acc) 0 m.

(** [get_stats] ([GET /api/stats]) *)
Definition get_stats (d : db) (f : faults) : response :=
  match f_aggregate f with
  | Some e => error_json e 500
  | None =>
      let aggregation_result :=
        if Nat.eqb (size (tracked_emails d)) 0 then []
        else [(mongo_sum open_count (tracked_emails d), mongo_sum click_count (tracked_emails d))] in
      let '(total_opens, total_clicks) :=
        match aggregation_result with [] => (0, 0) | r :: _ => r end in
      match f_count f with
      | Some e => error_json e 500
      | None =>
          let unique_ids := Z.of_nat (size (tracked_emails d)) in
          RJson (JObj [("total_opens", JNum total_opens); ("total_clicks", JNum total_clicks);
                       ("unique_tracking_ids", JNum unique_ids)]) 200
      end
  end.

(** [def get_tracking_details():] takes no parameter. *)
Definition GET_TRACKING_DETAILS_PARAMS : list string := [].

(** The body of [get_tracking_details], run with the given locals. The
    name [tracking_id] is looked up in them (the module defines no global
    of that name): a [NameError] is caught by the [except]. *)
Definition get_tracking_details_body (locals : list (string * string)) (d : db) (f : faults)
  : response :=
  match local_lookup locals "tracking_id" with
  | None => error_json "name 'tracking_id' is not defined" 500
  | Some tracking_id =>
      match f_find f with
      | Some e => error_json e 500
      | None =>
          match tracked_emails d !! tracking_id with
          | None => error_json "Tracking ID not found" 404
          | Some s =>
              if Nat.eqb (length (summary_fields s)) 0 then error_json "Tracking ID not found" 404
              else
                let real_open_events :=
                  sort_asc oe_opened_at
                    (filter (fun e => String.eqb (oe_uid e) tracking_id && oe_is_real_open e = true)
                       (open_events d)) in
                let click_events :=
                  sort_asc ce_clicked_at
                    (filter (fun e => String.eqb (ce_uid e) tracking_id = true) (clicks d)) in
                RJson (JObj (summary_fields s
                             ++ [("open_events", JArr (map open_event_json real_open_events));
                                 ("click_events", JArr (map click_event_json click_events))])) 200
          end
      end
  end.

(** Flask calls the view with the URL variables as keyword arguments. *)
Definition get_tracking_details_route (d : db) (tracking_id : string) (f : faults) : response :=
  match call_view GET_TRACKING_DETAILS_PARAMS [("tracking_id", tracking_id)] with
  | Raise e => RInternalServerError e
  | Ret locals => get_tracking_details_body locals d f
  end.

(* ------------------------------------------------------------------ *)
(** ** The server *)

Record server : Type := {
  srv_db : db;
  srv_uuid : uuid_gen
}.

Inductive request : Type :=
| ReqTrack (id_arg : option string)
| ReqTrackFinal (tracking_id request_id : string) (h : headers) (now_iso : string)
    (ext : ext_outcome) (f : faults)
| ReqClick (uid url : option string) (h : headers) (now_iso : string)
    (ext : ext_outcome) (f : faults)
| ReqOpens (id_arg : option string) (f : faults)
| ReqStats (f : faults)
| ReqDetails (tracking_id : string) (f : faults).

Definition with_db (s : server) (d : db) : server :=
  {| srv_db := d; srv_uuid := srv_uuid s |}.

Definition step (s : server) (r : request) : response * server :=
  match r with
  | ReqTrack id_arg =>
      let '(resp, g') := track_initial_request (srv_uuid s) id_arg in
      (resp, {| srv_db := srv_db s; srv_uuid := g' |})
  | ReqTrackFinal tid rid h now ext f =>
      match call_view TRACK_FINAL_PARAMS [("tracking_id", tid); ("request_id", rid)] with
      | Raise e => (RInternalServerError e, s)
      | Ret _ =>
          let '(resp, d') := track_final_confirmation (srv_db s) tid rid h now ext f in
          (resp, with_db s d')
      end
  | ReqClick uid url h now ext f =>
      let '(resp, d') := track_click (srv_db s) uid url h now ext f in (resp, with_db s d')
  | ReqOpens id_arg f => (get_opens (srv_db s) id_arg f, s)
  | ReqStats f => (get_stats (srv_db s) f, s)
  | ReqDetails tid f => (get_tracking_details_route (srv_db s) tid f, s)
  end.

Fixpoint run (s : server) (rs : list request) : server :=
  match rs with
  | [] => s
  | r :: rs' => run (snd (step s r)) rs'
  end.

(* ------------------------------------------------------------------ *)
(** ** The counters against the stored events *)



(** [open_count] of the summary of [tid]; absent document or field is 0. *)
Definition open_count_of (d : db) (tid : string) : Z :=
  default 0 (tracked_emails d !! tid ≫= open_count).




(** In a list sorted by [sort_by before key], [b] may follow [a]: [b]
    does not sort before [a]. *)
Definition may_follow {A} (before : string -> string -> bool) (key : A -> string) (a b : A)
  : Prop := before (key b) (key a) = false.

(** [click_count] of the summary of [tid]; absent document or field is 0. *)
Definition click_count_of (d : db) (tid : string) : Z :=
  default 0 (tracked_emails d !! tid ≫= click_count).


(** The character [c] occurs in [s]. *)
Fixpoint has_char (c : ascii) (s : string) : bool :=
  match s with
  | EmptyString => false
  | String c' s' => Ascii.eqb c c' || has_char c s'
  end.


(** No summary disappears and no counter goes down from [m] to [m']. *)
Definition summaries_grow (m m' : gmap string summary) : Prop :=
  forall k, (is_Some (m !! k) -> is_Some (m' !! k))
            /\ default 0 (m !! k ≫= open_count) <= default 0 (m' !! k ≫= open_count)
            /\ default 0 (m !! k ≫= click_count) <= default 0 (m' !! k ≫= click_count).



(* ------------------------------------------------------------------ *)
(** ** Readings of the spec, to compare the code against *)

Fixpoint split_dots_aux (s : string) (cur : string) : list string :=
  match s with
  | EmptyString => [cur]
  | String c s' =>
      if Ascii.eqb c "."%char then cur :: split_dots_aux s' EmptyString
      else split_dots_aux s' (cur +:+ String c EmptyString)
  end.

Definition split_dots (s : string) : list string := split_dots_aux s EmptyString.

Fixpoint parse_digits (s : string) (acc : Z) : option Z :=
  match s with
  | EmptyString => Some acc
  | String c s' =>
      let n := Z.of_nat (nat_of_ascii c) in
      if (48 <=? n) && (n <=? 57) then parse_digits s' (10 * acc + (n - 48)) else None
  end.

Definition parse_octet (s : string) : option Z :=
  match s with
  | EmptyString => None
  | _ => match parse_digits s 0 with
         | Some v => if v <=? 255 then Some v else None
         | None => None
         end
  end.

(** A dotted-quad IPv4 address. *)
Definition parse_ipv4 (s : string) : option (Z * Z * Z * Z) :=
  match split_dots s with
  | [a; b; c; d] =>
      match parse_octet a, parse_octet b, parse_octet c, parse_octet d with
      | Some a, Some b, Some c, Some d => Some (a, b, c, d)
      | _, _, _, _ => None
      end
  | _ => None
  end.

(** The spec's "private/loopback address ranges": 10.0.0.0/8,
    172.16.0.0/12, 192.168.0.0/16 and 127.0.0.0/8, and the IPv6 loopback. *)
Definition is_private_or_loopback (ip : string) : bool :=
  match parse_ipv4 ip with
  | Some (a, b, _, _) =>
      (a =? 10) || ((a =? 172) && (16 <=? b) && (b <=? 31))
      || ((a =? 192) && (b =? 168)) || (a =? 127)
  | None => String.eqb ip "::1"
  end.

(** The spec's totals: sum of a field over all summaries, absent = 0. *)
Definition sum_field (field : summary -> option Z) (m : gmap string summary) : Z :=
  foldr Z.add 0 (map (fun kv => default 0 (field kv.2)) (map_to_list m)).

Definition stats_spec (d : db) : json :=
  JObj [("total_opens", JNum (sum_field open_count (tracked_emails d)));
        ("total_clicks", JNum (sum_field click_count (tracked_emails d)));
        ("unique_tracking_ids", JNum (Z.of_nat (length (map_to_list (tracked_emails d)))))].

(* ------------------------------------------------------------------ *)
(** ** Concrete inputs *)

Definition tape_example : nat -> string := fun n => "attempt-" +:+ Py.str_Z (Z.of_nat n).

Definition server0 : server :=
  {| srv_db := empty_db; srv_uuid := {| uuid_tape := tape_example; uuid_pos := 0 |} |}.

Definition proxy_headers : headers :=
  {| hdr_user_agent := Some "Mozilla/5.0 (Windows NT 5.1; rv:11.0) Gecko Firefox/11.0 (via ggpht.com GoogleImageProxy)";
     hdr_x_forwarded_for := Some "66.249.84.1, 10.0.0.7"; remote_addr := "10.0.0.2" |}.

Definition browser_headers : headers :=
  {| hdr_user_agent := Some "Mozilla/5.0 (X11; Linux x86_64) Chrome/120.0";
     hdr_x_forwarded_for := None; remote_addr := "203.0.113.9" |}.

Definition geo_ok : ext_outcome :=
  ExtResponse 200 (JObj [("city", JStr "Mountain View"); ("country_code", JStr "US");
                         ("connection", JObj [("isp_name", JStr "Google LLC")])]).

Definition geo_ok_info : json :=
  JObj [("city", JStr "Mountain View"); ("region", JNull); ("country", JNull);
        ("country_code", JStr "US"); ("continent", JNull); ("latitude", JNull);
        ("longitude", JNull); ("isp", JStr "Google LLC"); ("connection_type", JNull)].

(** A 200 answer whose [connection] is JSON [null]. *)
Definition geo_null_connection : ext_outcome :=
  ExtResponse 200 (JObj [("city", JStr "Mountain View"); ("connection", JNull)]).


Definition example_requests : list request :=
  [ReqTrack (Some "abc");
   ReqTrackFinal "abc" "attempt-0" browser_headers "2025-01-01T10:00:00Z" geo_ok no_faults;
   ReqTrackFinal "abc" "attempt-0" proxy_headers "2025-01-01T10:00:05Z" geo_ok no_faults;
   ReqClick (Some "abc") (Some "https://example.com/") browser_headers "2025-01-01T10:01:00Z"
     geo_ok no_faults;
   ReqTrackFinal "xyz" "attempt-9" proxy_headers "2025-01-01T11:00:00Z" geo_ok
     {| f_insert := None; f_update := Some "WriteError"; f_find := None;
        f_aggregate := None; f_count := None |};
   ReqStats no_faults].

(* ------------------------------------------------------------------ *)
(** ** Sanity checks of the embedding *)

Example get_ip_info_private :
  get_ip_info "192.168.1.4" ExtRequestException
  = ([], Ret (JObj [("note", JStr "Private/Local IP Address")])).
Proof. reflexivity. Qed.

Example get_ip_info_status :
  snd (get_ip_info "8.8.8.8" (ExtResponse 429 JNull))
  = Ret (JObj [("error", JStr "API failed with status 429")]).
Proof. reflexivity. Qed.

Example TRANSPARENT_PNG_length : length TRANSPARENT_PNG = 70%nat.
Proof. vm_compute. reflexivity. Qed.

Example TRANSPARENT_PNG_signature :
  firstn 8 TRANSPARENT_PNG = [137; 80; 78; 71; 13; 10; 26; 10].
Proof. vm_compute. reflexivity. Qed.

(* ------------------------------------------------------------------ *)
(** ** The open counter against the stored events *)


Lemma step_db_cases s r :
  srv_db (snd (step s r)) = srv_db s
  \/ (exists tid rid h now ext f, r = ReqTrackFinal tid rid h now ext f /\
        srv_db (snd (step s r)) = snd (track_final_confirmation (srv_db s) tid rid h now ext f))
  \/ (exists uid url h now ext f, r = ReqClick uid url h now ext f /\
        srv_db (snd (step s r)) = snd (track_click (srv_db s) uid url h now ext f)).
Proof.
  destruct r; simpl.
  - destruct (track_initial_request _ _); auto.
  - right; left. do 6 eexists; split; [reflexivity|].
    destruct (track_final_confirmation _ _ _ _ _ _ _); reflexivity.
  - right; right. do 6 eexists; split; [reflexivity|].
    destruct (track_click _ _ _ _ _ _ _); reflexivity.
  - auto.
  - auto.
  - auto.
Qed.



Example get_ip_info_geo_ok : snd (get_ip_info "66.249.84.1" geo_ok) = Ret geo_ok_info.
Proof. reflexivity. Qed.

Example parse_ipv4_example : parse_ipv4 "172.217.0.1" = Some (172, 217, 0, 1).
Proof. reflexivity. Qed.

Example stats_after_example :
  fst (step (run server0 example_requests) (ReqStats no_faults))
  = RJson (JObj [("total_opens", JNum 1); ("total_clicks", JNum 1);
                 ("unique_tracking_ids", JNum 1)]) 200.
Proof. vm_compute. reflexivity. Qed.






(** Claim C4 fails on every input, by a defect: [get_tracking_details]
    is declared without parameters while its route passes [tracking_id],
    so Flask's call raises [TypeError] and the answer is a 500 error,
    never the summary nor a 404. *)
Theorem details_route_always_type_error (s : server) (tid : string) (f : faults) :
  fst (step s (ReqDetails tid f)) = RInternalServerError "TypeError".
Proof. reflexivity. Qed.

(** Claim C8 fails by a defect in the prefix list: the public address
    172.217.0.1 is not looked up, and the loopback address 127.0.0.2 is
    sent to the external service. *)
Theorem private_prefix_check_misclassifies (ext : ext_outcome) :
  is_private_or_loopback "172.217.0.1" = false /\ fst (get_ip_info "172.217.0.1" ext) = []
  /\ is_private_or_loopback "127.0.0.2" = true /\ fst (get_ip_info "127.0.0.2" ext) <> [].
Proof. repeat split; try reflexivity. simpl. discriminate. Qed.

(** Claim C2 fails by a defect: the click update has no [upsert=True]
    (the open path has it), so a click on an identifier without a
    summary never creates one, whatever the outcome of the request. *)
Theorem click_never_creates_summary (s : server) (uid : string) (url : option string)
  (h : headers) (now : string) (ext : ext_outcome) (f : faults) :
  tracked_emails (srv_db s) !! uid = None ->
  tracked_emails (srv_db (snd (step s (ReqClick (Some uid) url h now ext f)))) !! uid = None.
Proof.
  intros Hnone. simpl. unfold track_click.
  destruct (negb (Py.truthy (Some uid)) || negb (Py.truthy url)); [exact Hnone|].
  destruct (negb _ && negb _); [exact Hnone|].
  destruct (snd (get_ip_info _ ext)) as [geo|e]; [|exact Hnone]. simpl.
  unfold mbind, Mongo_bind, m_bind, insert_click_event, update_click_summary, mongo_call.
  destruct (f_insert f); simpl; [exact Hnone|].
  destruct (f_update f); simpl; [exact Hnone|].
  rewrite Hnone. exact Hnone.
Qed.

Lemma click_never_creates_summary_witness :
  tracked_emails (srv_db server0) !! "abc" = None
  /\ tracked_emails (srv_db (snd (step server0
       (ReqClick (Some "abc") (Some "https://example.com/") browser_headers
          "2025-01-01T10:01:00Z" geo_ok no_faults)))) !! "abc" = None.
Proof.
  split; [reflexivity|].
  apply (click_never_creates_summary server0 "abc" (Some "https://example.com/")
           browser_headers "2025-01-01T10:01:00Z" geo_ok no_faults).
  reflexivity.
Defined.

(** Hop-2 when [get_ip_info] returns: with every MongoDB call
    succeeding, a Hop-2 request whose user agent lacks [GoogleImageProxy]
    appends an OpenEvent with [is_real_open = false] and no [geo_info]
    and leaves every summary as it was; one whose user agent contains it,
    when [get_ip_info] returns [info], appends an OpenEvent with
    [is_real_open = true] and [geo_info = info], raises [open_count] by
    one, sets [last_opened_at], sets [first_opened_at] and [created_at]
    only when the summary is new, and touches no other summary. *)
Theorem hop2_classification (s : server) (tid rid : string) (h : headers) (now : string)
  (ext : ext_outcome) (info : json) :
  let d := srv_db s in
  let d' := srv_db (snd (step s (ReqTrackFinal tid rid h now ext no_faults))) in
  let ua := client_user_agent h in
  let ip := client_ip h in
  (Py.contains "GoogleImageProxy" ua = false ->
     open_events d' = open_events d ++
       [{| oe_uid := tid; oe_ip := ip; oe_user_agent := ua; oe_opened_at := now;
           oe_is_real_open := false; oe_geo_info := None |}]
     /\ tracked_emails d' = tracked_emails d)
  /\ (Py.contains "GoogleImageProxy" ua = true ->
      snd (get_ip_info ip ext) = Ret info ->
      open_events d' = open_events d ++
        [{| oe_uid := tid; oe_ip := ip; oe_user_agent := ua; oe_opened_at := now;
            oe_is_real_open := true; oe_geo_info := Some info |}]
      /\ (exists sm, tracked_emails d' !! tid = Some sm
           /\ open_count sm = Some (open_count_of d tid + 1)
           /\ last_opened_at sm = Some now
           /\ match tracked_emails d !! tid with
              | Some old => first_opened_at sm = first_opened_at old
                            /\ created_at sm = created_at old
              | None => first_opened_at sm = Some now /\ created_at sm = Some now
              end)
      /\ (forall k, k <> tid -> tracked_emails d' !! k = tracked_emails d !! k)).
Proof.
  simpl. unfold track_final_confirmation, track_final_try. split.
  - intros Hpx. rewrite Hpx. split; reflexivity.
  - intros Hpx Hgeo. rewrite Hpx.
    unfold mbind, Mongo_bind, m_bind, m_lift. rewrite Hgeo. simpl.
    split; [reflexivity|]. split.
    + eexists; split; [apply lookup_insert_eq|].
      unfold open_count_of.
      destruct (tracked_emails (srv_db s) !! tid) as [old|]; simpl; auto.
    + intros k Hk. apply lookup_insert_ne. congruence.
Qed.

Lemma hop2_classification_witness :
  (Py.contains "GoogleImageProxy" (client_user_agent browser_headers) = false
   /\ tracked_emails (srv_db (snd (step server0
        (ReqTrackFinal "abc" "attempt-0" browser_headers "t0" geo_ok no_faults))))
      = tracked_emails (srv_db server0))
  /\ (Py.contains "GoogleImageProxy" (client_user_agent proxy_headers) = true
      /\ snd (get_ip_info (client_ip proxy_headers) geo_ok) = Ret geo_ok_info
      /\ tracked_emails (srv_db (snd (step server0
           (ReqTrackFinal "abc" "attempt-0" proxy_headers "t1" geo_ok no_faults)))) !! "abc"
         <> None).
Proof.
  split.
  - split; [reflexivity|].
    apply (proj1 (hop2_classification server0 "abc" "attempt-0" browser_headers "t0"
                    geo_ok geo_ok_info)).
    reflexivity.
  - split; [reflexivity|]. split; [reflexivity|].
    destruct (proj2 (hop2_classification server0 "abc" "attempt-0" proxy_headers "t1"
                       geo_ok geo_ok_info) eq_refl eq_refl) as [_ [[sm [Hsm _]] _]].
    rewrite Hsm. discriminate.
Defined.

(** Claim C5 fails by a defect: in a Hop-2 request whose user agent
    contains [GoogleImageProxy] from a public address, [get_ip_info] runs
    first in the [try]; a 200 answer whose [connection] is [null] makes
    [.get] raise [AttributeError], the [except] drops it, and the request
    stores no OpenEvent and leaves [open_count] as it was, whatever the
    state and the MongoDB outcomes. *)
Theorem hop2_geo_failure_drops_confirmed_open (s : server) (tid rid : string) (h : headers)
  (now : string) (f : faults) :
  Py.contains "GoogleImageProxy" (client_user_agent h) = true ->
  Py.startswith_any (client_ip h) PRIVATE_PREFIXES = false ->
  step s (ReqTrackFinal tid rid h now geo_null_connection f) = (pixel_response, s).
Proof.
  intros Hpx Hpriv. destruct s as [d g]. simpl.
  unfold track_final_confirmation, track_final_try. rewrite Hpx.
  unfold mbind, Mongo_bind, m_bind, m_lift, get_ip_info. rewrite Hpriv. reflexivity.
Qed.

Lemma hop2_geo_failure_drops_confirmed_open_witness :
  Py.contains "GoogleImageProxy" (client_user_agent proxy_headers) = true
  /\ Py.startswith_any (client_ip proxy_headers) PRIVATE_PREFIXES = false
  /\ step server0 (ReqTrackFinal "abc" "attempt-0" proxy_headers "2025-01-01T10:00:05Z"
                    geo_null_connection no_faults) = (pixel_response, server0).
Proof.
  split; [reflexivity|]. split; [reflexivity|].
  apply hop2_geo_failure_drops_confirmed_open; reflexivity.
Defined.





(** Claim C7 fails by a defect: [get_ip_info] runs outside the [try] of
    [track_click] and catches only [RequestException]; a 200 answer
    whose [connection] is [null] makes [.get] raise [AttributeError],
    and a valid click gets Flask's 500 instead of the redirect. *)
Lemma click_geo_exception_breaks_redirect :
  fst (step server0 (ReqClick (Some "abc") (Some "https://example.com/") proxy_headers
                       "2025-01-01T10:01:00Z" geo_null_connection no_faults))
  = RInternalServerError "AttributeError"
  /\ snd (step server0 (ReqClick (Some "abc") (Some "https://example.com/") proxy_headers
                       "2025-01-01T10:01:00Z" geo_null_connection no_faults)) = server0.
Proof. split; reflexivity. Qed.

Lemma mongo_sum_sum_field (field : summary -> option Z) (m : gmap string summary) :
  mongo_sum field m = sum_field field m.
Proof.
  unfold mongo_sum, sum_field. rewrite map_fold_foldr.
  induction (map_to_list m) as [|[k v] l IH]; simpl; [reflexivity|].
  rewrite IH. reflexivity.
Qed.

(** Claim C9: [/api/stats] answers [total_opens] = the sum of
    [open_count] over all summaries, [total_clicks] = the sum of
    [click_count] with absent fields counted as 0, and
    [unique_tracking_ids] = the number of summaries; when the aggregation
    or the count raises, the answer is only the error object with status
    500. *)
Theorem get_stats_matches_spec (s : server) (f : faults) :
  fst (step s (ReqStats f))
  = match f_aggregate f with
    | Some e => RJson (JObj [("error", JStr e)]) 500
    | None =>
        match f_count f with
        | Some e => RJson (JObj [("error", JStr e)]) 500
        | None => RJson (stats_spec (srv_db s)) 200
        end
    end.
Proof.
  simpl. unfold get_stats, stats_spec, error_json.
  destruct (f_aggregate f) as [e|]; [reflexivity|].
  rewrite length_map_to_list.
  destruct (Nat.eqb_spec (size (tracked_emails (srv_db s))) 0) as [H0|H0].
  - apply map_size_empty_inv in H0. rewrite H0.
    unfold sum_field. rewrite map_to_list_empty. simpl.
    destruct (f_count f); reflexivity.
  - rewrite !mongo_sum_sum_field. destruct (f_count f); reflexivity.
Qed.

(** One confirmed Hop-2 request when every MongoDB call succeeds: the
    summary upsert and the event insert, with nothing depending on the
    attempt identifier. *)
Lemma hop2_confirmed_step s tid rid h now ext info :
  Py.contains "GoogleImageProxy" (client_user_agent h) = true ->
  snd (get_ip_info (client_ip h) ext) = Ret info ->
  snd (step s (ReqTrackFinal tid rid h now ext no_faults))
  = with_db s
      {| tracked_emails :=
           <[tid := upsert_open (tracked_emails (srv_db s) !! tid) now]> (tracked_emails (srv_db s));
         open_events := open_events (srv_db s) ++
           [{| oe_uid := tid; oe_ip := client_ip h; oe_user_agent := client_user_agent h;
               oe_opened_at := now; oe_is_real_open := true; oe_geo_info := Some info |}];
         clicks := clicks (srv_db s) |}.
Proof.
  intros Hpx Hgeo. simpl. unfold track_final_confirmation, track_final_try.
  rewrite Hpx. unfold mbind, Mongo_bind, m_bind, m_lift. rewrite Hgeo. reflexivity.
Qed.

(** Claim C10: the attempt identifier is never checked nor stored. For
    any list of attempt identifiers (never issued, or one replayed many
    times), replaying a Hop-2 request with a [GoogleImageProxy] user
    agent, every MongoDB call succeeding and [get_ip_info] returning,
    raises [open_count] by one per request and appends one confirmed
    OpenEvent per request, and the resulting state is the same whatever
    the identifiers are. *)
Theorem attempt_id_not_validated (s : server) (tid : string) (rids : list string)
  (h : headers) (now : string) (ext : ext_outcome) (info : json) :
  Py.contains "GoogleImageProxy" (client_user_agent h) = true ->
  snd (get_ip_info (client_ip h) ext) = Ret info ->
  let hop2 := fun rid => ReqTrackFinal tid rid h now ext no_faults in
  let ev := {| oe_uid := tid; oe_ip := client_ip h; oe_user_agent := client_user_agent h;
               oe_opened_at := now; oe_is_real_open := true; oe_geo_info := Some info |} in
  open_count_of (srv_db (run s (map hop2 rids))) tid
    = open_count_of (srv_db s) tid + Z.of_nat (length rids)
  /\ open_events (srv_db (run s (map hop2 rids)))
     = open_events (srv_db s) ++ repeat ev (length rids)
  /\ run s (map hop2 rids) = run s (map hop2 (repeat "" (length rids))).
Proof.
  intros Hpx Hgeo hop2 ev. revert s.
  induction rids as [|rid rids IH]; intros s; cbn [run map repeat length].
  - rewrite app_nil_r. split; [lia | split; reflexivity].
  - pose proof (hop2_confirmed_step s tid rid h now ext info Hpx Hgeo) as H1.
    pose proof (hop2_confirmed_step s tid "" h now ext info Hpx Hgeo) as H2.
    change (ReqTrackFinal tid rid h now ext no_faults) with (hop2 rid) in H1.
    change (ReqTrackFinal tid "" h now ext no_faults) with (hop2 "") in H2.
    rewrite H1, H2.
    match goal with
    | |- context [run ?s1 (map hop2 rids)] => destruct (IH s1) as [Hc [He Hr]]
    end.
    split; [|split].
    + rewrite Hc. unfold open_count_of; simpl. rewrite lookup_insert_eq.
      destruct (tracked_emails (srv_db s) !! tid) as [old|]; simpl; lia.
    + rewrite He. simpl. rewrite <- app_assoc. reflexivity.
    + exact Hr.
Qed.

Lemma attempt_id_not_validated_witness :
  Py.contains "GoogleImageProxy" (client_user_agent proxy_headers) = true
  /\ snd (get_ip_info (client_ip proxy_headers) geo_ok) = Ret geo_ok_info
  /\ open_count_of (srv_db (run server0
       (map (fun rid => ReqTrackFinal "abc" rid proxy_headers "t1" geo_ok no_faults)
            ["never-issued"; "never-issued"; "never-issued"]))) "abc" = 3.
Proof.
  split; [reflexivity|]. split; [reflexivity|].
  destruct (attempt_id_not_validated server0 "abc" ["never-issued"; "never-issued"; "never-issued"]
              proxy_headers "t1" geo_ok geo_ok_info eq_refl eq_refl) as [Hc _].
  rewrite Hc. reflexivity.
Defined.

(* ------------------------------------------------------------------ *)
(** ** [get_opens]: filtering and the descending sort *)

Section SortBy.
Context {A : Type} (before : string -> string -> bool) (key : A -> string).
Hypothesis before_asym : forall u v, before u v = true -> before v u = false.

Lemma insert_by_perm x l : insert_by before key x l ≡ₚ x :: l.
Proof.
  induction l as [|y l IH]; simpl; [reflexivity|].
  destruct (before (key x) (key y)); [reflexivity|].
  rewrite IH. apply perm_swap.
Qed.

Lemma insert_by_sorted x l :
  Sorted (may_follow before key) l -> Sorted (may_follow before key) (insert_by before key x l).
Proof.
  induction l as [|y l IH]; simpl; intros Hs.
  - repeat constructor.
  - destruct (before (key x) (key y)) eqn:E.
    + constructor; [exact Hs|]. constructor. unfold may_follow. apply before_asym, E.
    + apply Sorted_inv in Hs as [Hl Hhd]. constructor; [apply IH, Hl|].
      destruct l as [|z l]; simpl; [constructor; exact E|].
      destruct (before (key x) (key z)); constructor; [exact E|].
      inversion Hhd; assumption.
Qed.

Lemma sort_by_perm_sorted l :
  sort_by before key l ≡ₚ l /\ Sorted (may_follow before key) (sort_by before key l).
Proof.
  unfold sort_by.
  assert (G : forall acc, Sorted (may_follow before key) acc ->
            fold_left (fun acc x => insert_by before key x acc) l acc ≡ₚ l ++ acc
            /\ Sorted (may_follow before key) (fold_left (fun acc x => insert_by before key x acc) l acc)).
  { induction l as [|x l IH]; intros acc Hacc; simpl; [split; [reflexivity | exact Hacc]|].
    destruct (IH (insert_by before key x acc) (insert_by_sorted x acc Hacc)) as [Hp Hs].
    split; [|exact Hs]. rewrite Hp, insert_by_perm. symmetry. apply Permutation_middle. }
  destruct (G [] (Sorted_nil _)) as [Hp Hs]. rewrite app_nil_r in Hp. auto.
Qed.

End SortBy.

Lemma ltb_asym u v : String.ltb u v = true -> String.ltb v u = false.
Proof.
  unfold String.ltb. rewrite (String.compare_antisym v u).
  destruct (String.compare u v); simpl; congruence.
Qed.

(** Extra: [/api/opens] answers (when the find succeeds) a list that is a
    permutation of the stored OpenEvents, restricted to [uid = id] when
    a non-empty [id] is given, in which no event has an [opened_at]
    smaller than the one after it (descending order). *)
Theorem get_opens_sorted_filtered (d : db) (id_arg : option string) (f : faults) :
  f_find f = None ->
  exists l : list open_event,
    get_opens d id_arg f = RJson (JObj [("opens", JArr (map open_event_json l))]) 200
    /\ l ≡ₚ (if Py.truthy id_arg
             then filter (fun e => oe_uid e = default "" id_arg) (open_events d)
             else open_events d)
    /\ Sorted (fun a b => String.ltb (oe_opened_at a) (oe_opened_at b) = false) l.
Proof.
  intros Hf. unfold get_opens. rewrite Hf.
  set (matching := if Py.truthy id_arg
                   then filter (fun e => String.eqb (oe_uid e) (default "" id_arg) = true)
                          (open_events d)
                   else open_events d).
  exists (sort_desc oe_opened_at matching). split; [reflexivity|].
  destruct (sort_by_perm_sorted (fun a b => String.ltb b a) oe_opened_at
              (fun u v H => ltb_asym v u H) matching) as [Hp Hs].
  split; [|exact Hs].
  unfold sort_desc. rewrite Hp. unfold matching.
  destruct (Py.truthy id_arg); [|reflexivity].
  apply reflexive_eq, list_filter_iff. intros e. apply String.eqb_eq.
Qed.

Lemma get_opens_sorted_filtered_witness :
  f_find no_faults = None
  /\ exists l : list open_event,
       get_opens (srv_db (run server0 example_requests)) (Some "abc") no_faults
       = RJson (JObj [("opens", JArr (map open_event_json l))]) 200
       /\ length l = 2%nat.
Proof.
  split; [reflexivity|].
  destruct (get_opens_sorted_filtered (srv_db (run server0 example_requests)) (Some "abc")
              no_faults eq_refl) as [l [Hr [Hp _]]].
  exists l. split; [exact Hr|].
  apply Permutation_length in Hp. rewrite Hp. vm_compute. reflexivity.
Defined.

(** Extra: [/click] with a missing or empty [uid] or [url], or a [url]
    not starting with [http://] or [https://], answers 400 and writes
    nothing, whatever the geolocation service and the database would do. *)
Theorem track_click_rejects_invalid (d : db) (uid url : option string) (h : headers)
  (now : string) (ext : ext_outcome) (f : faults) :
  Py.truthy uid && Py.truthy url
  && (Py.startswith (default "" url) "http://" || Py.startswith (default "" url) "https://")
  = false ->
  exists msg, track_click d uid url h now ext f = (RText msg 400, d).
Proof.
  intros Hv. unfold track_click.
  destruct (Py.truthy uid), (Py.truthy url); simpl in *; eauto.
  destruct (Py.startswith (default "" url) "http://"),
           (Py.startswith (default "" url) "https://"); simpl in *; eauto; discriminate.
Qed.

Lemma track_click_rejects_invalid_witness :
  exists msg,
    (Py.truthy (Some "abc") && Py.truthy (Some "ftp://x")
     && (Py.startswith "ftp://x" "http://" || Py.startswith "ftp://x" "https://")) = false
    /\ track_click empty_db (Some "abc") (Some "ftp://x") browser_headers "t" geo_ok no_faults
       = (RText msg 400, empty_db).
Proof.
  destruct (track_click_rejects_invalid empty_db (Some "abc") (Some "ftp://x") browser_headers
              "t" geo_ok no_faults eq_refl) as [msg H].
  exists msg. split; [reflexivity | exact H].
Defined.


(** Extra: a valid click whose geolocation lookup returns [geo] and whose
    two MongoDB calls succeed appends exactly that ClickEvent, raises the
    [click_count] of an existing summary by one, and changes no open
    count and no OpenEvent. *)
Theorem track_click_success (d : db) (uid url : string) (h : headers) (now : string)
  (ext : ext_outcome) (geo : json) :
  Py.truthy (Some uid) = true -> Py.startswith url "https://" = true ->
  snd (get_ip_info (client_ip h) ext) = Ret geo ->
  let d' := snd (track_click d (Some uid) (Some url) h now ext no_faults) in
  clicks d' = clicks d ++
    [{| ce_uid := uid; ce_destination_url := url; ce_ip := client_ip h;
        ce_user_agent := client_user_agent h; ce_clicked_at := now; ce_geo_info := geo |}]
  /\ open_events d' = open_events d
  /\ (forall k, open_count_of d' k = open_count_of d k)
  /\ (is_Some (tracked_emails d !! uid) -> click_count_of d' uid = click_count_of d uid + 1)
  /\ (forall k, k <> uid -> click_count_of d' k = click_count_of d k).
Proof.
  intros Hu Hs Hgeo. unfold track_click. rewrite Hu.
  assert (Hurl : Py.truthy (Some url) = true).
  { destruct url; [discriminate | reflexivity]. }
  change (default "" (Some url)) with url. change (default "" (Some uid)) with uid.
  rewrite Hurl, Hs, andb_false_r. simpl. rewrite Hgeo. simpl.
  split; [reflexivity|]. split; [reflexivity|].
  unfold open_count_of, click_count_of. simpl.
  destruct (tracked_emails d !! uid) as [sm|] eqn:Hsm.
  - split; [|split].
    + intros k. destruct (String.eqb_spec uid k) as [<-|Hne].
      * rewrite lookup_insert_eq, Hsm. reflexivity.
      * rewrite lookup_insert_ne by done. reflexivity.
    + intros _. rewrite lookup_insert_eq. simpl. reflexivity.
    + intros k Hk. rewrite lookup_insert_ne by congruence. reflexivity.
  - split; [reflexivity|]. split; [intros [? ?]; discriminate | reflexivity].
Qed.

Lemma track_click_success_witness :
  Py.truthy (Some "abc") = true
  /\ Py.startswith "https://example.com/" "https://" = true
  /\ snd (get_ip_info (client_ip browser_headers) geo_ok) = Ret geo_ok_info
  /\ click_count_of (snd (track_click (srv_db (run server0 (take 3 example_requests)))
                           (Some "abc") (Some "https://example.com/") browser_headers
                           "2025-01-01T10:01:00Z" geo_ok no_faults)) "abc"
     = click_count_of (srv_db (run server0 (take 3 example_requests))) "abc" + 1.
Proof.
  split; [reflexivity|]. split; [reflexivity|]. split; [reflexivity|].
  apply (proj1 (proj2 (proj2 (proj2
    (track_click_success (srv_db (run server0 (take 3 example_requests))) "abc"
       "https://example.com/" browser_headers "2025-01-01T10:01:00Z" geo_ok geo_ok_info
       eq_refl eq_refl eq_refl))))).
  vm_compute. eexists. reflexivity.
Defined.


Lemma has_char_list c s :
  has_char c s = existsb (Ascii.eqb c) (String.list_ascii_of_string s).
Proof. induction s as [|c' s IH]; simpl; [reflexivity|]. rewrite IH. reflexivity. Qed.

Lemma has_char_string_rev c s : has_char c (Py.string_rev s) = has_char c s.
Proof.
  unfold Py.string_rev. rewrite !has_char_list, String.list_ascii_of_string_of_list_ascii.
  induction (String.list_ascii_of_string s) as [|a l IH]; simpl; [reflexivity|].
  rewrite existsb_app, IH. simpl. rewrite orb_false_r, orb_comm. reflexivity.
Qed.

Lemma has_char_lstrip c s : has_char c (Py.lstrip s) = true -> has_char c s = true.
Proof.
  induction s as [|c' s IH]; simpl; [auto|].
  destruct (Py.is_space c'); simpl; [intros H; rewrite IH by exact H; apply orb_true_r | auto].
Qed.

Lemma has_char_strip c s : has_char c (Py.strip s) = true -> has_char c s = true.
Proof.
  unfold Py.strip. intros H.
  rewrite has_char_string_rev in H. apply has_char_lstrip in H.
  rewrite has_char_string_rev in H. apply has_char_lstrip in H. exact H.
Qed.

Lemma split_comma_head_no_comma s : has_char ","%char (Py.split_comma_head s) = false.
Proof.
  induction s as [|c s IH]; simpl; [reflexivity|].
  destruct (Ascii.eqb c ","%char) eqn:E; [reflexivity|].
  cbn [has_char]. rewrite IH, orb_false_r.
  destruct (Ascii.eqb_spec ","%char c) as [<-|]; [|reflexivity].
  rewrite Ascii.eqb_refl in E. discriminate.
Qed.

(** Extra: the client address recorded in OpenEvents and ClickEvents
    never contains a comma: only the first entry of [X-Forwarded-For]
    (or [remote_addr]) is kept. *)
Theorem client_ip_no_comma (h : headers) : has_char ","%char (client_ip h) = false.
Proof.
  unfold client_ip.
  destruct (has_char ","%char (Py.strip _)) eqn:E; [|reflexivity].
  apply has_char_strip in E. rewrite split_comma_head_no_comma in E. discriminate.
Qed.







Lemma summaries_grow_refl m : summaries_grow m m.
Proof. intros k. split; [auto | lia]. Qed.

Lemma summaries_grow_trans m1 m2 m3 :
  summaries_grow m1 m2 -> summaries_grow m2 m3 -> summaries_grow m1 m3.
Proof.
  intros H12 H23 k. destruct (H12 k) as [A1 [B1 C1]], (H23 k) as [A2 [B2 C2]].
  split; [auto | lia].
Qed.

Lemma summaries_grow_insert m i x :
  default 0 (m !! i ≫= open_count) <= default 0 (open_count x) ->
  default 0 (m !! i ≫= click_count) <= default 0 (click_count x) ->
  summaries_grow m (<[i := x]> m).
Proof.
  intros Ho Hc k. destruct (String.eqb_spec i k) as [<-|Hne].
  - rewrite lookup_insert_eq. simpl. split; [eauto | lia].
  - rewrite lookup_insert_ne by done. split; [auto | lia].
Qed.

Lemma summaries_grow_upsert_open m tid now :
  summaries_grow m (<[tid := upsert_open (m !! tid) now]> m).
Proof.
  apply summaries_grow_insert;
    destruct (m !! tid) as [[[o|] [c|] ? ? ?]|]; simpl; lia.
Qed.

Lemma step_append_only s r :
  let d := srv_db s in
  let d' := srv_db (snd (step s r)) in
  (exists no nc, open_events d' = open_events d ++ no /\ clicks d' = clicks d ++ nc
                 /\ (length no + length nc <= 1)%nat)
  /\ summaries_grow (tracked_emails d) (tracked_emails d').
Proof.
  simpl.
  destruct (step_db_cases s r)
    as [-> | [(tid & rid & h & now & ext & f & -> & ->) | (uid & url & h & now & ext & f & -> & ->)]].
  - split; [exists [], []; rewrite !app_nil_r; auto | apply summaries_grow_refl].
  - set (d := srv_db s).
    unfold track_final_confirmation, track_final_try.
    destruct (Py.contains "GoogleImageProxy" (client_user_agent h)).
    + unfold mbind, Mongo_bind, m_bind, m_lift, update_open_summary, insert_open_event, mongo_call.
      destruct (snd (get_ip_info (client_ip h) ext)); simpl;
        [|split; [exists [], []; rewrite !app_nil_r; auto | apply summaries_grow_refl]].
      destruct (f_update f); simpl;
        [split; [exists [], []; rewrite !app_nil_r; auto | apply summaries_grow_refl]|].
      destruct (f_insert f); simpl;
        (split; [|apply summaries_grow_upsert_open]).
      * exists [], []. rewrite !app_nil_r. auto.
      * eexists [_], []. rewrite app_nil_r. simpl. auto.
    + unfold insert_open_event, mongo_call.
      destruct (f_insert f); simpl; (split; [|apply summaries_grow_refl]).
      * exists [], []. rewrite !app_nil_r. auto.
      * eexists [_], []. rewrite app_nil_r. simpl. auto.
  - set (d := srv_db s). unfold track_click.
    destruct (negb (Py.truthy uid) || negb (Py.truthy url)); simpl;
      [split; [exists [], []; rewrite !app_nil_r; auto | apply summaries_grow_refl]|].
    destruct (negb _ && negb _); simpl;
      [split; [exists [], []; rewrite !app_nil_r; auto | apply summaries_grow_refl]|].
    destruct (snd (get_ip_info (client_ip h) ext)); simpl;
      [|split; [exists [], []; rewrite !app_nil_r; auto | apply summaries_grow_refl]].
    unfold mbind, Mongo_bind, m_bind, insert_click_event, update_click_summary, mongo_call.
    destruct (f_insert f); simpl;
      [split; [exists [], []; rewrite !app_nil_r; auto | apply summaries_grow_refl]|].
    destruct (f_update f); simpl.
    + split; [eexists [], [_]; rewrite app_nil_r; simpl; split; [reflexivity | split; [reflexivity | lia]] | apply summaries_grow_refl].
    + split; [eexists [], [_]; rewrite app_nil_r; simpl; split; [reflexivity | split; [reflexivity | lia]]|].
      destruct (tracked_emails d !! default "" uid) as [sm|] eqn:Hsm;
        [|apply summaries_grow_refl].
      apply summaries_grow_insert; rewrite Hsm; simpl; [lia|].
      destruct (click_count sm); simpl; lia.
Qed.

(** Extra: the database only grows. After any sequence of requests, with
    any outcome of every external call, the OpenEvents and ClickEvents
    stored before are still there in the same order, followed by at most
    one new event per request; no summary is deleted; and no
    [open_count] or [click_count] decreases. *)
Theorem run_append_only (s : server) (rs : list request) :
  let d := srv_db s in
  let d' := srv_db (run s rs) in
  (exists no nc, open_events d' = open_events d ++ no /\ clicks d' = clicks d ++ nc
                 /\ (length no + length nc <= length rs)%nat)
  /\ summaries_grow (tracked_emails d) (tracked_emails d').
Proof.
  revert s. induction rs as [|r rs IH]; intros s; simpl.
  - split; [exists [], []; rewrite !app_nil_r; auto | apply summaries_grow_refl].
  - destruct (step_append_only s r) as [(no1 & nc1 & Ho1 & Hc1 & Hl1) Hg1].
    destruct (IH (snd (step s r))) as [(no2 & nc2 & Ho2 & Hc2 & Hl2) Hg2].
    split; [|eapply summaries_grow_trans; eauto].
    exists (no1 ++ no2), (nc1 ++ nc2).
    rewrite Ho2, Hc2, Ho1, Hc1, !app_assoc. split; [reflexivity|]. split; [reflexivity|].
    rewrite !length_app. lia.
Qed.















(** Extra: every dict [get_ip_info] returns has one of three key sets:
    the private-address note, an error, or the nine geolocation fields. *)
Theorem get_ip_info_result_keys (ip : string) (ext : ext_outcome) (j : json) :
  snd (get_ip_info ip ext) = Ret j ->
  exists fs, j = JObj fs
    /\ (fs.*1 = ["note"] \/ fs.*1 = ["error"]
        \/ fs.*1 = ["city"; "region"; "country"; "country_code"; "continent";
                    "latitude"; "longitude"; "isp"; "connection_type"]).
Proof.
  unfold get_ip_info. destruct (Py.startswith_any ip PRIVATE_PREFIXES); simpl.
  { intros [= <-]. eexists; split; [reflexivity | auto]. }
  destruct ext as [status data|]; simpl.
  2:{ intros [= <-]. eexists; split; [reflexivity | auto]. }
  destruct (Z.eqb status 200).
  2:{ intros [= <-]. eexists; split; [reflexivity | auto]. }
  unfold mbind, py_result_bind; simpl.
  intros H.
  repeat match type of H with
         | context [bind_r ?x _] => destruct x; simpl in H; [|discriminate]
         end.
  injection H as <-. eexists; split; [reflexivity | auto 10].
Qed.

Lemma get_ip_info_result_keys_witness :
  snd (get_ip_info "66.249.84.1" geo_ok) = Ret geo_ok_info
  /\ exists fs, geo_ok_info = JObj fs
    /\ (fs.*1 = ["note"] \/ fs.*1 = ["error"]
        \/ fs.*1 = ["city"; "region"; "country"; "country_code"; "continent";
                    "latitude"; "longitude"; "isp"; "connection_type"]).
Proof.
  split; [reflexivity|].
  apply (get_ip_info_result_keys "66.249.84.1" geo_ok). reflexivity.
Defined.
